(** * CAPES-DOI enrichment pipeline: resumable, rate-limited enrichment engine

    A shallow embedding of [pipeline_with_resume.py] (class
    [CAPESDOIEnricherFinal]) and the properties of its skip filter,
    title normaliser, match cache, fuzzy match selector, fetch layer,
    batch orchestrator and checkpoint/resume manager. *)

From Stdlib Require Import ZArith QArith Ascii.
From stdpp Require Import gmap strings list fin_maps sorting.

Local Open Scope Z_scope.

(** * Text: Python [str] values

    The raw data is read with [encoding='ISO-8859-1'], so every code point
    of a title is below 256: a Python [str] is modelled as a [string] whose
    characters are Latin-1 code points. *)
Module Text.

Definition code (c : ascii) : N := N_of_ascii c.

Definition in_range (lo hi : N) (c : ascii) : bool :=
  ((lo <=? code c) && (code c <=? hi))%N.

(** [str.isspace] on one character, which is also the regex class [\s]:
    TAB..CR, FS..US, SPACE, NEL and NBSP. *)
Definition is_space (c : ascii) : bool :=
  in_range 9 13 c || in_range 28 32 c || (code c =? 133)%N || (code c =? 160)%N.

(** The regex class [\d] (decimal digits) and the range [A-Z]. *)
Definition is_digit (c : ascii) : bool := in_range 48 57 c.
Definition is_AZ (c : ascii) : bool := in_range 65 90 c.

(** The regex dot: anything except a line feed (no DOTALL flag). *)
Definition is_newline (c : ascii) : bool := (code c =? 10)%N.
Definition is_dot (c : ascii) : bool := negb (is_newline c).

Fixpoint lstrip (s : string) : string :=
  match s with
  | EmptyString => EmptyString
  | String c s' => if is_space c then lstrip s' else s
  end.

(** All characters of [s] are white space. *)
Fixpoint all_space (s : string) : bool :=
  match s with
  | EmptyString => true
  | String c s' => is_space c && all_space s'
  end.

Fixpoint rstrip (s : string) : string :=
  match s with
  | EmptyString => EmptyString
  | String c s' => if all_space s then EmptyString else String c (rstrip s')
  end.

(** [s.strip()] *)
Definition strip (s : string) : string := rstrip (lstrip s).

(** [str.upper] on one character.  The sharp s becomes two letters; the
    capitals of the micro sign and of y-diaeresis are not Latin-1 and
    these two letters are left as they are. *)
Definition upper_char (c : ascii) : string :=
  if in_range 97 122 c then String (ascii_of_N (code c - 32)) EmptyString
  else if (code c =? 223)%N then "SS"
  else if in_range 224 254 c && negb (code c =? 247)%N
       then String (ascii_of_N (code c - 32)) EmptyString
  else String c EmptyString.

(** [s.upper()] *)
Fixpoint upper (s : string) : string :=
  match s with
  | EmptyString => EmptyString
  | String c s' => upper_char c +:+ upper s'
  end.

(** [s[:n]] for a literal [n >= 0] *)
Fixpoint take (n : nat) (s : string) : string :=
  match n, s with
  | S n', String c s' => String c (take n' s')
  | _, _ => EmptyString
  end.

Fixpoint is_prefix (p s : string) : bool :=
  match p, s with
  | EmptyString, _ => true
  | String a p', String b s' => Ascii.eqb a b && is_prefix p' s'
  | String _ _, EmptyString => false
  end.

(** [p in s] *)
Fixpoint contains (p s : string) : bool :=
  is_prefix p s ||
  match s with
  | EmptyString => false
  | String _ s' => contains p s'
  end.

(** Truthiness of a string: [if s] *)
Definition nonempty (s : string) : bool :=
  match s with EmptyString => false | String _ _ => true end.

End Text.

(** * Regular expressions of the skip filter

    Each pattern of [skip_patterns] has the shape [^ c1{a1,b1} ... cn{an,bn} $]
    with character classes [ci].  [re.match] anchors at the start; without
    MULTILINE, [$] matches at the end of the string or just before a line
    feed that ends the string. *)
Module Regex.

Record rep := Rep {
  rep_class : ascii -> bool;
  rep_min : nat;
  rep_max : option nat   (* None: unbounded *)
}.

(** [$] *)
Definition at_end (s : string) : bool :=
  match s with
  | EmptyString => true
  | String c EmptyString => Text.is_newline c
  | _ => false
  end.

(** [cls{lo,hi}] followed by the continuation [k]. *)
Fixpoint match_rep (cls : ascii -> bool) (lo : nat) (hi : option nat)
    (k : string -> bool) (s : string) {struct s} : bool :=
  match lo with O => k s | S _ => false end
  ||
  match s with
  | EmptyString => false
  | String c s' =>
      match hi with
      | Some O => false
      | _ => cls c && match_rep cls (Nat.pred lo) (Nat.pred <$> hi) k s'
      end
  end.

Fixpoint match_seq (r : list rep) : string -> bool :=
  match r with
  | [] => at_end
  | a :: r' => match_rep (rep_class a) (rep_min a) (rep_max a) (match_seq r')
  end.

(** [re.match(pattern, s)] as a truth value *)
Definition re_match (r : list rep) (s : string) : bool := match_seq r s.

End Regex.

(** * Configuration

    The attributes set by [__init__].  They are positive integers there and
    are kept positive here. *)
Record Config := {
  max_concurrent : positive;
  rate_limit : positive;
  similarity_threshold : Q;
  batch_size : positive;
  checkpoint_interval : positive
}.

Definition default_config : Config := {|
  max_concurrent := 50;
  rate_limit := 80;
  similarity_threshold := 90 # 1;
  batch_size := 200;
  checkpoint_interval := 1000
|}.

(** * Title normaliser and skip filter *)
Module Filter.
Import Text Regex.

(** [self.skip_patterns] *)
Definition skip_patterns : list (list rep) := [
  [Rep (fun c => is_AZ c || is_space c) 10 None];                (* ^[A-Z\s]{10,}$ *)
  [Rep is_digit 1 None; Rep is_space 0 None];                    (* ^\d+\s*$ *)
  [Rep is_dot 0 (Some 5%nat)];                                   (* ^.{0,5}$ *)
  [Rep is_dot 250 None]                                          (* ^.{250,}$ *)
].

(** OCORRENCIA DE and PREVALENCIA DE are spelt with E-circumflex
    (code point 202). *)
Definition portuguese_indicators : list string := [
  "OCORR" +:+ String (ascii_of_N 202) "NCIA DE";
  "PREVAL" +:+ String (ascii_of_N 202) "NCIA DE";
  "ESTUDO DE CASO"
].

(** [should_skip_title(title)]; [None] is a missing value (NaN). *)
Definition should_skip_title (title : option string) : bool :=
  match title with
  | None => true
  | Some t =>
      if negb (nonempty (strip t)) then true
      else
        let title_str := strip t in
        if existsb (fun pattern => re_match pattern title_str) skip_patterns then true
        else if existsb (fun indicator => contains indicator (upper title_str))
                  portuguese_indicators then true
        else false
  end.

(** [normalize_title(title)] *)
Definition normalize_title (title : option string) : option string :=
  match title with
  | None => None
  | Some t => if String.eqb t "" then None else Some (take 200 (upper (strip t)))
  end.

End Filter.

(** * Fuzzy scoring: the similarity function of the external matching library

    [fuzz.token_sort_ratio] is not part of the repository.  The selector is
    stated over an arbitrary scoring function; [Fuzzy.token_sort_ratio]
    follows the library's published definition (tokens split on white space,
    sorted and joined by one space, then the normalised indel similarity
    scaled to 0..100, two empty strings being a perfect match) and serves
    for concrete evaluations. *)
Module Fuzzy.
Import Text.

(** [s.split()], with the token under construction in [cur] (reversed). *)
Fixpoint split_ws (cur : list ascii) (s : string) : list (list ascii) :=
  let flush := match cur with [] => [] | _ => [rev cur] end in
  match s with
  | EmptyString => flush
  | String c s' => if is_space c then flush ++ split_ws [] s' else split_ws (c :: cur) s'
  end.

Fixpoint token_leb (a b : list ascii) : bool :=
  match a, b with
  | [], _ => true
  | _ :: _, [] => false
  | x :: a', y :: b' =>
      if (code x <? code y)%N then true
      else if (code y <? code x)%N then false
      else token_leb a' b'
  end.

Fixpoint insert_token (t : list ascii) (l : list (list ascii)) : list (list ascii) :=
  match l with
  | [] => [t]
  | u :: l' => if token_leb t u then t :: l else u :: insert_token t l'
  end.

Definition sort_tokens (l : list (list ascii)) : list (list ascii) :=
  foldr insert_token [] l.

Fixpoint join_tokens (l : list (list ascii)) : list ascii :=
  match l with
  | [] => []
  | [t] => t
  | t :: l' => t ++ " "%char :: join_tokens l'
  end.

(** Length of a longest common subsequence. *)
Fixpoint lcs (a : list ascii) : list ascii -> nat :=
  match a with
  | [] => fun _ => O
  | x :: a' =>
      fix lcs_row (b : list ascii) : nat :=
        match b with
        | [] => O
        | y :: b' =>
            if Ascii.eqb x y then S (lcs a' b')
            else Nat.max (lcs a' b) (lcs_row b')
        end
  end.

(** [fuzz.ratio] *)
Definition ratio (a b : list ascii) : Q :=
  match (length a + length b)%nat with
  | O => 100 # 1
  | S n => (200 * Z.of_nat (lcs a b)) # Pos.of_succ_nat n
  end.

Definition token_sort_ratio (s1 s2 : string) : Q :=
  ratio (join_tokens (sort_tokens (split_ws [] s1)))
        (join_tokens (sort_tokens (split_ws [] s2))).

End Fuzzy.

(** * Data model *)

(** One row of a DataFrame: its index label, the title and year columns,
    and the four enrichment columns ([None]: the frame has no such column). *)
Record Row := {
  row_idx : Z;
  NM_PRODUCAO : option string;            (* None: NaN *)
  AN_BASE : option Z;                     (* None: NaN *)
  doi : option (option string);
  crossref_title : option (option string);
  similarity_score : option Q;
  from_cache : option bool
}.

(** The dictionary built by [find_best_match] and [get_cached_result]. *)
Record MatchResult := {
  mr_doi : option string;
  mr_crossref_title : option string;
  mr_similarity_score : Q;
  mr_from_cache : bool
}.

(** One element of [message.items] in a search reply. *)
Record Item := {
  it_DOI : option string;
  it_title : option (list string)
}.

(** Outcome of one HTTP GET. *)
Inductive Response :=
| Reply (status : Z) (body : option (list Item))   (* body None: not the expected JSON *)
| TransportError.                                   (* timeout, connection failure *)

(** A row of table [crossref_cache], without its key. *)
Record CacheEntry := {
  ce_doi : option string;
  ce_crossref_title : option string;
  ce_similarity_score : option Q
}.

(** A checkpoint file [checkpoint_<target>_<count>.parquet]: the map key is
    the pair of numbers in its name. *)
Record Snapshot := {
  ck_mtime : Z;
  ck_rows : list Row
}.

(** A row of table [processing_progress]. *)
Record LedgerRow := {
  lg_session_id : Z;
  lg_records_processed : Z;
  lg_target_size : Z;
  lg_checkpoint_file : Z * Z;
  lg_status : string
}.

Inductive Event :=
| EvRequest (query : string)
| EvSleep (seconds : Q).

(** Everything the engine reads and writes outside its own variables.  The
    trace lists the network calls and the sleeps, newest first. *)
Record World := {
  w_cache : gmap string CacheEntry;
  w_files : gmap (Z * Z) Snapshot;
  w_ledger : list LedgerRow;
  w_outputs : gmap Z (list Row);
  w_clock : Z;
  w_trace : list Event
}.

Inductive Exn := ZeroDivisionError | ValueError | TypeError | ClientError | ContentTypeError.

Inductive Result (A : Type) :=
| Ok (a : A)
| Raise (e : Exn).
Arguments Ok {A} a.
Arguments Raise {A} e.

Definition set_cache (c : gmap string CacheEntry) (w : World) : World :=
  {| w_cache := c; w_files := w_files w; w_ledger := w_ledger w;
     w_outputs := w_outputs w; w_clock := w_clock w; w_trace := w_trace w |}.

Definition log_event (e : Event) (w : World) : World :=
  {| w_cache := w_cache w; w_files := w_files w; w_ledger := w_ledger w;
     w_outputs := w_outputs w; w_clock := w_clock w; w_trace := e :: w_trace w |}.

Definition is_request (e : Event) : bool :=
  match e with EvRequest _ => true | EvSleep _ => false end.

(** Number of external fetch calls made so far. *)
Definition requests_made (w : World) : nat := length (filter is_request (w_trace w)).

(** Python slice [l[start:stop]] and [DataFrame.iloc[start:stop]]. *)
Definition clamp_index (n i : Z) : Z :=
  if i <? 0 then Z.max 0 (i + n) else Z.min i n.

Definition py_slice {A} (l : list A) (start stop : Z) : list A :=
  let n := Z.of_nat (length l) in
  let a := clamp_index n start in
  let b := clamp_index n stop in
  take (Z.to_nat (b - a)) (drop (Z.to_nat a) l).

(** [len(df)] *)
Definition len {A} (l : list A) : Z := Z.of_nat (length l).

(** [df.head(n)] *)
Definition df_head {A} (n : Z) (l : list A) : list A := py_slice l 0 n.

(** * Match cache *)
Module Cache.
Import Filter.

(** [get_cached_result(title)] *)
Definition get_cached_result (title : option string) (w : World) : option MatchResult :=
  match normalize_title title with
  | None => None
  | Some normalized =>
      if negb (Text.nonempty normalized) then None
      else
        match w_cache w !! normalized with
        | Some result =>
            Some {| mr_doi := ce_doi result;
                    mr_crossref_title := ce_crossref_title result;
                    mr_similarity_score :=
                      match ce_similarity_score result with
                      | Some s => s
                      | None => 0
                      end;
                    mr_from_cache := true |}
        | None => None
        end
  end.

(** [cache_result(title, doi, crossref_title, similarity_score)] *)
Definition cache_result (title : option string) (doi : option string)
    (crossref_title : option string) (similarity_score : Q) (w : World) : World :=
  match normalize_title title with
  | None => w
  | Some normalized =>
      if negb (Text.nonempty normalized) then w
      else
        set_cache (<[normalized :=
                      {| ce_doi := doi; ce_crossref_title := crossref_title;
                         ce_similarity_score := Some similarity_score |}]> (w_cache w)) w
  end.

End Cache.

(** * Fuzzy match selector *)
Section Selector.
Variable cfg : Config.
Variable token_sort_ratio : string -> string -> Q.

(** [item.get('title', [''])[0] if item.get('title') else ''] *)
Definition first_title (item : Item) : string :=
  match it_title item with
  | Some (t :: _) => t
  | _ => ""
  end.

(** The [for item in crossref_items] loop of [find_best_match]. *)
Fixpoint find_best_match_loop (original_clean : string) (items : list Item)
    : option MatchResult :=
  match items with
  | [] => None
  | item :: rest =>
      let crossref_title := first_title item in
      if negb (Text.nonempty crossref_title) then find_best_match_loop original_clean rest
      else
        let similarity :=
          token_sort_ratio original_clean (Text.strip (Text.upper crossref_title)) in
        if Qle_bool (similarity_threshold cfg) similarity then
          Some {| mr_doi := it_DOI item;
                  mr_crossref_title := Some crossref_title;
                  mr_similarity_score := similarity;
                  mr_from_cache := false |}
        else find_best_match_loop original_clean rest
  end.

(** [find_best_match(original_title, crossref_items)] *)
Definition find_best_match (original_title : string) (crossref_items : list Item)
    : option MatchResult :=
  match crossref_items with
  | [] => None
  | _ => find_best_match_loop (Text.strip (Text.upper original_title)) crossref_items
  end.

End Selector.

(** * Fetch layer and batch orchestrator *)
Section Fetch.
Variable cfg : Config.
Variable token_sort_ratio : string -> string -> Q.

(** The search service: the reply to the [n]-th request of the run, given
    its [query.title] parameter. *)
Variable crossref : nat -> string -> Response.

(** The body of the [try] block of [search_crossref]. *)
Definition search_crossref_try (title : option string) (w : World)
    : World * Result (option MatchResult) :=
  match title with
  | None => (w, Raise TypeError)              (* a NaN cannot be sliced *)
  | Some t =>
      let query := Text.take 100 t in
      let w1 := log_event (EvRequest query) w in
      match crossref (requests_made w) query with
      | TransportError => (w1, Raise ClientError)
      | Reply status body =>
          if status =? 200 then
            match body with
            | None => (w1, Raise ContentTypeError)
            | Some items => (w1, Ok (find_best_match cfg token_sort_ratio t items))
            end
          else if status =? 429 then (log_event (EvSleep 1) w1, Ok None)
          else (w1, Ok None)
      end
  end.

(** [search_crossref(title)]: the bare [except] turns every exception
    into [None]. *)
Definition search_crossref (title : option string) (w : World)
    : World * option MatchResult :=
  let '(w', r) := search_crossref_try title w in
  (w', match r with Ok result => result | Raise _ => None end).

(** A task of [process_title] is either finished or suspended at the
    semaphore with its title. *)
Inductive Task :=
| Done (result : option MatchResult)
| Pending (title : option string).

(** [process_title] up to its first suspension: skip check and cache
    lookup, which run when the task is started. *)
Definition process_title_start (title : option string) (w : World) : Task :=
  if Filter.should_skip_title title then Done None
  else
    match Cache.get_cached_result title w with
    | Some cached => Done (Some cached)
    | None => Pending title
    end.

(** [process_title] inside [async with semaphore]: rate-limit pause,
    search, and the cache write that follows the search without another
    suspension. *)
Definition process_title_fetch (title : option string) (w : World)
    : World * option MatchResult :=
  let w1 := log_event (EvSleep (1 # rate_limit cfg)) w in
  let '(w2, result) := search_crossref title w1 in
  let w3 :=
    match result with
    | Some r =>
        Cache.cache_result title (mr_doi r) (mr_crossref_title r) (mr_similarity_score r) w2
    | None => Cache.cache_result title None None 0 w2
    end in
  (w3, result).

(** [process_title(title, semaphore)] run on its own. *)
Definition process_title (title : option string) (w : World)
    : World * option MatchResult :=
  match process_title_start title w with
  | Done result => (w, result)
  | Pending t => process_title_fetch t w
  end.

(** Resume the [i]-th task if it is suspended. *)
Definition resume_task (st : list Task * World) (i : nat) : list Task * World :=
  let '(tasks, w) := st in
  match tasks !! i with
  | Some (Pending t) =>
      let '(w', result) := process_title_fetch t w in
      (<[i := Done result]> tasks, w')
  | _ => st
  end.

Definition task_result (t : Task) : option MatchResult :=
  match t with Done result => result | Pending _ => None end.

(** [gather] of the tasks: every task is started in order, then the suspended
    ones are resumed in the order [order] chosen by the event loop, each
    continuation running to its end; tasks that [order] leaves out are
    resumed last, in task order.  The results come back in task order. *)
Definition gather (order : list nat) (titles : list (option string)) (w : World)
    : World * list (option MatchResult) :=
  let tasks := map (fun title => process_title_start title w) titles in
  let '(tasks', w') :=
    foldl resume_task (tasks, w) (order ++ seq 0 (length tasks)) in
  (w', map task_result tasks').

Definition valid_pairs (batch_df : list Row) : list (Z * option string) :=
  flat_map (fun row =>
              let title := NM_PRODUCAO row in
              if negb (Filter.should_skip_title title) then [(row_idx row, title)] else [])
           batch_df.

(** The four assignments [batch_df[column] = default]. *)
Definition init_columns (row : Row) : Row :=
  {| row_idx := row_idx row; NM_PRODUCAO := NM_PRODUCAO row; AN_BASE := AN_BASE row;
     doi := Some None; crossref_title := Some None;
     similarity_score := Some 0%Q; from_cache := Some false |}.

(** The four assignments [batch_df.loc[idx, column] = ...] for one result. *)
Definition write_result (df : list Row) (pr : (Z * option string) * option MatchResult)
    : list Row :=
  match pr with
  | ((idx, _), Some result) =>
      map (fun row =>
             if row_idx row =? idx then
               {| row_idx := row_idx row; NM_PRODUCAO := NM_PRODUCAO row;
                  AN_BASE := AN_BASE row;
                  doi := Some (mr_doi result);
                  crossref_title := Some (mr_crossref_title result);
                  similarity_score := Some (mr_similarity_score result);
                  from_cache := Some (mr_from_cache result) |}
             else row) df
  | (_, None) => df
  end.

(** [process_batch(batch_df, batch_id)], with the completion order of the
    batch's tasks. *)
Definition process_batch (order : list nat) (batch_df : list Row) (w : World)
    : World * list Row :=
  let pairs := valid_pairs batch_df in
  let batch_df := map init_columns batch_df in
  match pairs with
  | [] => (w, batch_df)
  | _ =>
      let '(w', results) := gather order (map snd pairs) w in
      (w', foldl write_result batch_df (zip pairs results))
  end.

End Fetch.

(** * Checkpoint manager *)
Module Checkpoint.

Definition set_files (fs : gmap (Z * Z) Snapshot) (w : World) : World :=
  {| w_cache := w_cache w; w_files := fs; w_ledger := w_ledger w;
     w_outputs := w_outputs w; w_clock := w_clock w; w_trace := w_trace w |}.

Definition set_clock (t : Z) (w : World) : World :=
  {| w_cache := w_cache w; w_files := w_files w; w_ledger := w_ledger w;
     w_outputs := w_outputs w; w_clock := t; w_trace := w_trace w |}.

Definition add_ledger (r : LedgerRow) (w : World) : World :=
  {| w_cache := w_cache w; w_files := w_files w; w_ledger := w_ledger w ++ [r];
     w_outputs := w_outputs w; w_clock := w_clock w; w_trace := w_trace w |}.

Definition mtime (f : (Z * Z) * Snapshot) : Z := ck_mtime f.2.

(** [Path('data/processed').glob(f'checkpoint_{target_size}_*.parquet')],
    in the order of the directory listing. *)
Definition glob_checkpoints (target_size : Z) (w : World) : list ((Z * Z) * Snapshot) :=
  filter (fun f => f.1.1 = target_size) (map_to_list (w_files w)).

(** [max(files, key=mtime)]: the first file of greatest modification time. *)
Fixpoint max_by_mtime (best : (Z * Z) * Snapshot) (l : list ((Z * Z) * Snapshot))
    : (Z * Z) * Snapshot :=
  match l with
  | [] => best
  | f :: l' => max_by_mtime (if mtime best <? mtime f then f else best) l'
  end.

(** [get_last_checkpoint(target_size)] *)
Definition get_last_checkpoint (target_size : Z) (w : World)
    : option ((Z * Z) * Snapshot) * Z :=
  match glob_checkpoints target_size w with
  | [] => (None, 0)
  | f :: l =>
      let latest_checkpoint := max_by_mtime f l in
      (Some latest_checkpoint, latest_checkpoint.1.2)
  end.

Fixpoint insert_by_mtime (f : (Z * Z) * Snapshot) (l : list ((Z * Z) * Snapshot))
    : list ((Z * Z) * Snapshot) :=
  match l with
  | [] => [f]
  | g :: l' => if mtime f <=? mtime g then f :: l else g :: insert_by_mtime f l'
  end.

(** [sorted(files, key=mtime)]: ascending and stable. *)
Definition sorted_by_mtime (l : list ((Z * Z) * Snapshot)) : list ((Z * Z) * Snapshot) :=
  foldr insert_by_mtime [] l.

(** [old_checkpoint.unlink()] *)
Definition unlink (w : World) (f : (Z * Z) * Snapshot) : World :=
  set_files (delete f.1 (w_files w)) w.

(** The first half of [save_checkpoint]: the snapshot is written and the
    ledger row inserted.  The file is stamped with the current clock, which
    moves on by one tick. *)
Definition store_checkpoint (df : list Row) (target_size records_processed : Z) (w : World)
    : World :=
  let checkpoint_file := (target_size, records_processed) in
  let w1 := set_clock (w_clock w + 1)
              (set_files (<[checkpoint_file := {| ck_mtime := w_clock w; ck_rows := df |}]>
                            (w_files w)) w) in
  add_ledger {| lg_session_id := w_clock w;
                lg_records_processed := records_processed;
                lg_target_size := target_size;
                lg_checkpoint_file := checkpoint_file;
                lg_status := "checkpoint" |} w1.

(** The second half: all but the last three files in order of modification
    time are removed. *)
Definition prune_checkpoints (target_size : Z) (w : World) : World :=
  let old_checkpoints := py_slice (sorted_by_mtime (glob_checkpoints target_size w)) 0 (-3) in
  foldl unlink w old_checkpoints.

(** [save_checkpoint(df, target_size, records_processed)] *)
Definition save_checkpoint (df : list Row) (target_size records_processed : Z) (w : World)
    : World :=
  prune_checkpoints target_size (store_checkpoint df target_size records_processed w).

End Checkpoint.

(** * Resume and batch loop *)

(** The input frame of [enrich_with_resume]. *)
Record DataFrame := {
  df_has_AN_BASE : bool;       (* 'AN_BASE' in df.columns *)
  df_rows : list Row
}.

Definition set_idx (i : Z) (row : Row) : Row :=
  {| row_idx := i; NM_PRODUCAO := NM_PRODUCAO row; AN_BASE := AN_BASE row;
     doi := doi row; crossref_title := crossref_title row;
     similarity_score := similarity_score row; from_cache := from_cache row |}.

(** [pd.concat(frames, ignore_index=True)] *)
Definition pd_concat (frames : list (list Row)) : Result (list Row) :=
  match frames with
  | [] => Raise ValueError
  | _ => Ok (imap (fun i row => set_idx (Z.of_nat i) row) (concat frames))
  end.

(** [series.unique()]: distinct values in order of first appearance. *)
Fixpoint unique (l : list (option Z)) : list (option Z) :=
  match l with
  | [] => []
  | y :: l' => y :: filter (fun z => z ≠ y) (unique l')
  end.

(** [df[df['AN_BASE'] == year]]: a missing value equals nothing. *)
Definition rows_of_year (year : option Z) (rows : list Row) : list Row :=
  match year with
  | None => []
  | Some y => filter (fun row => AN_BASE row = Some y) rows
  end.

Section Resume.
Variable cfg : Config.
Variable token_sort_ratio : string -> string -> Q.
Variable crossref : nat -> string -> Response.

(** Completion order of the tasks of each batch. *)
Variable schedule : Z -> list nat.

(** Random source: [rng call k] decides the [k]-th draw of the [call]-th
    sampling. *)
Variable rng : nat -> nat -> nat.

(** Draw [n] rows without replacement. *)
Fixpoint draw (pick : nat -> nat) (n : nat) (rows : list Row) : list Row :=
  match n with
  | O => []
  | S n' =>
      match rows with
      | [] => []
      | row0 :: _ =>
          let i := (pick n' mod length rows)%nat in
          nth i rows row0 :: draw pick n' (delete i rows)
      end
  end.

(** [rows.sample(n=n)] *)
Definition df_sample (call : nat) (n : Z) (rows : list Row) : Result (list Row) :=
  if (n <? 0) || (len rows <? n) then Raise ValueError
  else Ok (draw (rng call) (Z.to_nat n) rows).

(** The [for year in years] loop. *)
Fixpoint sample_years (years : list (option Z)) (call : nat) (rows : list Row)
    (records_per_year : Z) : Result (list (list Row)) :=
  match years with
  | [] => Ok []
  | year :: years' =>
      let year_data := rows_of_year year rows in
      let sample_size := Z.min (len year_data) records_per_year in
      if 0 <? sample_size then
        match df_sample call sample_size year_data with
        | Raise e => Raise e
        | Ok year_sample =>
            match sample_years years' (S call) rows records_per_year with
            | Raise e => Raise e
            | Ok year_samples => Ok (year_sample :: year_samples)
            end
        end
      else sample_years years' (S call) rows records_per_year
  end.

(** The stratified branch of the sampling. *)
Definition sample_stratified (rows : list Row) (remaining_records : Z) : Result (list Row) :=
  let years := unique (map AN_BASE rows) in
  if len years =? 0 then Raise ZeroDivisionError
  else
    let records_per_year := remaining_records / len years in
    match sample_years years 0 rows records_per_year with
    | Raise e => Raise e
    | Ok year_samples =>
        match pd_concat year_samples with
        | Raise e => Raise e
        | Ok remaining_df =>
            if remaining_records <? len remaining_df
            then df_sample (length years) remaining_records remaining_df
            else Ok remaining_df
        end
    end.

Definition sample_remaining (df : DataFrame) (remaining_records : Z) : Result (list Row) :=
  if df_has_AN_BASE df then sample_stratified (df_rows df) remaining_records
  else df_sample 0 (Z.min (len (df_rows df)) remaining_records) (df_rows df).

(** [sum(len(df) for df in new_enriched_data)] *)
Definition total_len (frames : list (list Row)) : Z := foldr Z.add 0 (map len frames).

(** The test that guards [save_checkpoint] in the batch loop. *)
Definition checkpoint_due (current_total batch_id total_batches : Z) : bool :=
  (current_total mod Z.pos (checkpoint_interval cfg) =? 0) || (batch_id =? total_batches - 1).

(** One turn of the [for batch_id in range(total_batches)] loop. *)
Definition batch_step (target_size : Z) (processed_df remaining_df : list Row)
    (total_batches : Z) (batch_id : Z) (new_enriched_data : list (list Row)) (w : World)
    : World * Result (list (list Row)) :=
  let start_idx := batch_id * Z.pos (batch_size cfg) in
  let end_idx := Z.min ((batch_id + 1) * Z.pos (batch_size cfg)) (len remaining_df) in
  let batch_df := py_slice remaining_df start_idx end_idx in
  let '(w1, enriched_batch) :=
    process_batch cfg token_sort_ratio crossref (schedule batch_id) batch_df w in
  let new_enriched_data := new_enriched_data ++ [enriched_batch] in
  let current_total := len processed_df + total_len new_enriched_data in
  if checkpoint_due current_total batch_id total_batches then
    match pd_concat (if 0 <? len processed_df
                     then processed_df :: new_enriched_data
                     else new_enriched_data) with
    | Raise e => (w1, Raise e)
    | Ok temp_df =>
        (Checkpoint.save_checkpoint temp_df target_size current_total w1,
         Ok new_enriched_data)
    end
  else (w1, Ok new_enriched_data).

Fixpoint run_batches (target_size : Z) (processed_df remaining_df : list Row)
    (total_batches : Z) (batch_ids : list Z) (new_enriched_data : list (list Row))
    (w : World) : World * Result (list (list Row)) :=
  match batch_ids with
  | [] => (w, Ok new_enriched_data)
  | batch_id :: batch_ids' =>
      match batch_step target_size processed_df remaining_df total_batches
              batch_id new_enriched_data w with
      | (w', Ok new_enriched_data') =>
          run_batches target_size processed_df remaining_df total_batches
            batch_ids' new_enriched_data' w'
      | (w', Raise e) => (w', Raise e)
      end
  end.

(** [range(n)] *)
Definition range (n : Z) : list Z := map Z.of_nat (seq 0 (Z.to_nat n)).

Definition write_output (target_size : Z) (final_df : list Row) (w : World) : World :=
  {| w_cache := w_cache w; w_files := w_files w; w_ledger := w_ledger w;
     w_outputs := <[target_size := final_df]> (w_outputs w);
     w_clock := w_clock w; w_trace := w_trace w |}.

(** [enrich_with_resume] from [await self.setup_session()] on. *)
Definition enrich_from (processed_df : list Row) (df : DataFrame) (target_size : Z)
    (w : World) : World * Result (list Row) :=
  let remaining_records := target_size - len processed_df in
  if remaining_records <=? 0 then (w, Ok processed_df)
  else
    match sample_remaining df remaining_records with
    | Raise e => (w, Raise e)
    | Ok remaining_df =>
        let total_batches :=
          (len remaining_df + Z.pos (batch_size cfg) - 1) / Z.pos (batch_size cfg) in
        match run_batches target_size processed_df remaining_df total_batches
                (range total_batches) [] w with
        | (w1, Raise e) => (w1, Raise e)
        | (w1, Ok new_enriched_data) =>
            match pd_concat (if 0 <? len processed_df
                             then processed_df :: new_enriched_data
                             else new_enriched_data) with
            | Raise e => (w1, Raise e)
            | Ok final_df => (write_output target_size final_df w1, Ok final_df)
            end
        end
    end.

(** [enrich_with_resume(df, target_size)] *)
Definition enrich_with_resume (df : DataFrame) (target_size : Z) (w : World)
    : World * Result (list Row) :=
  match Checkpoint.get_last_checkpoint target_size w with
  | (Some checkpoint_file, records_processed) =>
      if 0 <? records_processed then
        let processed_df := ck_rows checkpoint_file.2 in
        if target_size <=? len processed_df
        then (w, Ok (df_head target_size processed_df))
        else enrich_from processed_df df target_size w
      else enrich_from [] df target_size w
  | (None, _) => enrich_from [] df target_size w
  end.

End Resume.

(** * Vocabulary of the properties *)

(** No character of [s] is one of the lower-case letters a..z. *)
Fixpoint no_lower (s : string) : bool :=
  match s with
  | EmptyString => true
  | String c s' => negb (Text.in_range 97 122 c) && no_lower s'
  end.

(** [s] contains a line feed. *)
Fixpoint has_newline (s : string) : bool :=
  match s with
  | EmptyString => false
  | String c s' => Text.is_newline c || has_newline s'
  end.

(** A candidate carries a non-empty first title. *)
Definition titled (item : Item) : bool := Text.nonempty (first_title item).

Section SelectorVocabulary.
Variable cfg : Config.
Variable token_sort_ratio : string -> string -> Q.

(** The similarity score of a candidate against the source title. *)
Definition score (original_title : string) (item : Item) : Q :=
  token_sort_ratio (Text.strip (Text.upper original_title))
                   (Text.strip (Text.upper (first_title item))).

(** A candidate that carries a title and scores at least the threshold. *)
Definition acceptable (original_title : string) (item : Item) : Prop :=
  titled item = true /\ (similarity_threshold cfg <= score original_title item)%Q.

(** The result built from an accepted candidate. *)
Definition result_of (original_title : string) (item : Item) : MatchResult :=
  {| mr_doi := it_DOI item;
     mr_crossref_title := Some (first_title item);
     mr_similarity_score := score original_title item;
     mr_from_cache := false |}.
End SelectorVocabulary.

(** A world with nothing stored and nothing done yet. *)
Definition empty_world : World :=
  {| w_cache := ∅; w_files := ∅; w_ledger := []; w_outputs := ∅;
     w_clock := 0; w_trace := [] |}.


Definition cached_no_match : MatchResult :=
  {| mr_doi := None; mr_crossref_title := None;
     mr_similarity_score := 0; mr_from_cache := true |}.

(** The part of a row that the engine passes through. *)
Definition passthrough (row : Row) : Z * option string * option Z :=
  (row_idx row, NM_PRODUCAO row, AN_BASE row).

(** All four enrichment columns hold a value in the row. *)
Definition enriched (row : Row) : Prop :=
  is_Some (doi row) /\ is_Some (crossref_title row) /\
  is_Some (similarity_score row) /\ is_Some (from_cache row).

(** The row holds the four "no match" defaults. *)
Definition has_defaults (row : Row) : Prop :=
  doi row = Some None /\ crossref_title row = Some None /\
  similarity_score row = Some 0%Q /\ from_cache row = Some false.

(** What the writes of results for the index labels [labels] may change
    in one row. *)
Definition written (labels : list Z) (row row' : Row) : Prop :=
  passthrough row' = passthrough row /\
  (enriched row -> enriched row') /\
  (row_idx row ∉ labels -> row' = row).





(** Every character of [s] is in the class [cls]. *)
Fixpoint all_in (cls : ascii -> bool) (s : string) : bool :=
  match s with
  | EmptyString => true
  | String c s' => cls c && all_in cls s'
  end.

(** The result of [process_title] as a later cache lookup returns it. *)
Definition as_cached (r : option MatchResult) : MatchResult :=
  match r with
  | Some m => {| mr_doi := mr_doi m; mr_crossref_title := mr_crossref_title m;
                 mr_similarity_score := mr_similarity_score m; mr_from_cache := true |}
  | None => cached_no_match
  end.

(** The two worlds hold the same checkpoint files, ledger, final outputs
    and clock. *)
Definition same_storage (w w' : World) : Prop :=
  w_files w' = w_files w /\ w_ledger w' = w_ledger w /\
  w_outputs w' = w_outputs w /\ w_clock w' = w_clock w.

(** The title has no entry in the cache of [w]. *)
Definition cache_miss (w : World) (title : option string) : bool :=
  match Cache.get_cached_result title w with
  | None => true
  | Some _ => false
  end.

(** Number of suspended tasks. *)
Fixpoint count_pending (tasks : list Task) : nat :=
  match tasks with
  | [] => O
  | Pending _ :: l => S (count_pending l)
  | Done _ :: l => count_pending l
  end.

(** The valid pairs of a batch whose title is not in the cache when the
    batch starts: the records that need a fetch. *)
Definition pairs_to_fetch (batch_df : list Row) (w : World) : list (Z * option string) :=
  filter (fun p => cache_miss w p.2 = true) (valid_pairs batch_df).

(** No task is suspended at position [j]. *)
Definition settled (tasks : list Task) (j : nat) : Prop :=
  forall title, tasks !! j <> Some (Pending title).

(** Every suspended task carries a title (not a missing value). *)
Definition pending_titled (tasks : list Task) : Prop :=
  Forall (fun task => task <> Pending None) tasks.



(** Sample data for concrete runs: a plain input row, an enriched row, and
    a world whose storage holds one checkpoint of target size 2 with two
    rows. *)
Definition input_row (i : Z) (title : option string) (year : option Z) : Row :=
  {| row_idx := i; NM_PRODUCAO := title; AN_BASE := year;
     doi := None; crossref_title := None; similarity_score := None; from_cache := None |}.

Definition sample_snapshot : Snapshot :=
  {| ck_mtime := 7;
     ck_rows := [init_columns (input_row 0 (Some "Deep learning for proteins") (Some 2019));
                 init_columns (input_row 1 None (Some 2020))] |}.

Definition sample_world : World :=
  Checkpoint.set_files {[ (2, 2) := sample_snapshot ]} empty_world.



(** * Properties of the text layer *)
Module TextFacts.
Import Text.

Lemma take_length n s : (String.length (take n s) <= n)%nat.
Proof.
  revert s; induction n as [|n IH]; intros [|c s]; simpl; try lia.
  specialize (IH s); lia.
Qed.

Lemma take_empty n s : take (S n) s = "" <-> s = "".
Proof. destruct s; simpl; split; congruence. Qed.

Lemma upper_char_nonempty c : nonempty (upper_char c) = true.
Proof.
  unfold upper_char.
  repeat match goal with |- context [if ?b then _ else _] => destruct b end; reflexivity.
Qed.

Lemma upper_empty s : upper s = "" <-> s = "".
Proof.
  destruct s as [|c s]; simpl; [tauto|].
  split; [|discriminate].
  pose proof (upper_char_nonempty c) as H.
  destruct (upper_char c); [discriminate H | discriminate].
Qed.

Lemma lstrip_empty s : lstrip s = "" <-> all_space s = true.
Proof.
  induction s as [|c s IH]; simpl; [tauto|].
  destruct (is_space c); simpl; [exact IH|].
  split; discriminate.
Qed.

Lemma all_space_lstrip s : all_space (lstrip s) = all_space s.
Proof.
  induction s as [|c s IH]; simpl; [reflexivity|].
  destruct (is_space c) eqn:E; simpl; [exact IH|].
  rewrite E. reflexivity.
Qed.

Lemma rstrip_empty s : rstrip s = "" <-> all_space s = true.
Proof.
  destruct s as [|c s]; [simpl; tauto|].
  change (rstrip (String c s)) with
    (if all_space (String c s) then EmptyString else String c (rstrip s)).
  destruct (all_space (String c s)); split; congruence.
Qed.

Lemma strip_empty s : strip s = "" <-> all_space s = true.
Proof. unfold strip. rewrite rstrip_empty, all_space_lstrip. tauto. Qed.

Lemma no_lower_app s1 s2 :
  no_lower (s1 +:+ s2) = no_lower s1 && no_lower s2.
Proof.
  induction s1 as [|c s1 IH]; simpl; [reflexivity|].
  rewrite IH. apply andb_assoc.
Qed.

Lemma upper_char_no_lower c : no_lower (upper_char c) = true.
Proof. destruct c as [[] [] [] [] [] [] [] []]; reflexivity. Qed.

Lemma upper_no_lower s : no_lower (upper s) = true.
Proof.
  induction s as [|c s IH]; simpl; [reflexivity|].
  rewrite no_lower_app, upper_char_no_lower, IH. reflexivity.
Qed.

Lemma take_no_lower n s : no_lower s = true -> no_lower (take n s) = true.
Proof.
  revert s; induction n as [|n IH]; intros [|c s]; simpl; try reflexivity.
  intros [-> H]%andb_true_iff. simpl. auto.
Qed.

End TextFacts.

(** * Properties of the normaliser and the skip filter *)
Module FilterFacts.
Import Text Regex Filter.

Lemma dot_run_matches (n : nat) (s : string) :
  (String.length s <= n)%nat -> has_newline s = false ->
  match_rep is_dot 0 (Some n) at_end s = true.
Proof.
  revert n; induction s as [|c s IH]; intros n Hlen Hnl.
  - reflexivity.
  - simpl in Hlen, Hnl. apply orb_false_iff in Hnl as [Hc Hs].
    destruct n as [|n]; [lia|].
    simpl. unfold is_dot at 1. rewrite Hc. simpl.
    rewrite IH by (auto; lia). apply orb_true_r.
Qed.

(** A title of fewer than six characters that holds no line feed is
    skipped: the pattern for short titles matches it. *)
Lemma should_skip_title_short_single_line (t : string) :
  (String.length (strip t) < 6)%nat -> has_newline (strip t) = false ->
  should_skip_title (Some t) = true.
Proof.
  intros Hlen Hnl. unfold should_skip_title.
  destruct (negb (nonempty (strip t))); [reflexivity|].
  replace (existsb _ skip_patterns) with true; [reflexivity|].
  symmetry. apply existsb_exists.
  exists [Rep is_dot 0 (Some 5%nat)]. split.
  - simpl. tauto.
  - apply dot_run_matches; [lia | exact Hnl].
Qed.

End FilterFacts.

(** C8, as the code has it.  [normalize_title] returns none for an absent
    and for an empty title.  For every other title it returns the trimmed
    title, upper-cased and cut to 200 characters: a key of at most 200
    characters with no lower-case letter a..z, which is the empty key
    exactly when the title is white space only.  The cache lookup and the
    cache write treat the empty key as no key. *)
Theorem normalize_title_contract (t : string) :
  Filter.normalize_title None = None /\
  Filter.normalize_title (Some "") = None /\
  exists key : string,
    Filter.normalize_title (Some t) = (if String.eqb t "" then None else Some key) /\
    key = Text.take 200 (Text.upper (Text.strip t)) /\
    (String.length key <= 200)%nat /\
    no_lower key = true /\
    (key = "" <-> Text.all_space t = true) /\
    (if Text.all_space t
     then forall w d ct s,
            Cache.get_cached_result (Some t) w = None /\
            Cache.cache_result (Some t) d ct s w = w
     else True).
Proof.
  split; [reflexivity|]. split; [reflexivity|].
  exists (Text.take 200 (Text.upper (Text.strip t))).
  assert (Hkey : Text.take 200 (Text.upper (Text.strip t)) = "" <-> Text.all_space t = true).
  { rewrite TextFacts.take_empty, TextFacts.upper_empty. apply TextFacts.strip_empty. }
  repeat split.
  - apply TextFacts.take_length.
  - apply TextFacts.take_no_lower, TextFacts.upper_no_lower.
  - apply Hkey.
  - apply Hkey.
  - destruct (Text.all_space t) eqn:Hsp; [|exact I].
    intros w d ct s.
    unfold Cache.get_cached_result, Cache.cache_result, Filter.normalize_title.
    destruct (String.eqb t ""); [split; reflexivity|].
    replace (Text.take 200 (Text.upper (Text.strip t))) with "" by (symmetry; tauto).
    split; reflexivity.
Qed.

(** C8, as stated, fails on a title of white space only: [normalize_title]
    returns the empty key for it, not none. *)
Lemma normalize_title_whitespace_only :
  Text.all_space "   " = true /\
  Filter.normalize_title (Some "   ") = Some "" /\
  Filter.normalize_title (Some "   ") <> None.
Proof. repeat split; discriminate. Qed.

(** C9 at a title of three characters with a line feed in the middle: the
    trimmed title is shorter than six characters and [should_skip_title]
    returns false, because the dot of the pattern for short titles does not
    match a line feed. *)
Theorem should_skip_title_misses_short_multiline :
  let title := String "A" (String (ascii_of_N 10) (String "B" EmptyString)) in
  (String.length (Text.strip title) < 6)%nat /\
  Filter.should_skip_title (Some title) = false.
Proof. split; [simpl; lia | reflexivity]. Qed.

(** * Properties of the fuzzy match selector *)
Section SelectorFacts.
Variable cfg : Config.
Variable token_sort_ratio : string -> string -> Q.

Lemma find_best_match_unfold (original_title : string) (items : list Item) :
  find_best_match cfg token_sort_ratio original_title items =
  find_best_match_loop cfg token_sort_ratio
    (Text.strip (Text.upper original_title)) items.
Proof. destruct items; reflexivity. Qed.

Lemma find_best_match_loop_spec (original_title : string) (items : list Item) :
  match find_best_match_loop cfg token_sort_ratio
          (Text.strip (Text.upper original_title)) items with
  | Some r =>
      exists pre item post,
        items = pre ++ item :: post /\
        Forall (fun x => ~ acceptable cfg token_sort_ratio original_title x) pre /\
        acceptable cfg token_sort_ratio original_title item /\
        r = result_of token_sort_ratio original_title item
  | None => Forall (fun x => ~ acceptable cfg token_sort_ratio original_title x) items
  end.
Proof.
  induction items as [|item rest IH]; simpl; [constructor|].
  destruct (Text.nonempty (first_title item)) eqn:Ht; simpl.
  - destruct (Qle_bool _ _) eqn:Hs.
    + exists [], item, rest. repeat split; auto.
      apply Qle_bool_iff. exact Hs.
    + assert (Hno : ~ acceptable cfg token_sort_ratio original_title item).
      { intros [_ Hle]. apply Qle_bool_iff in Hle.
        unfold score in Hle. congruence. }
      destruct (find_best_match_loop _ _ _ rest).
      * destruct IH as (pre & it & post & -> & Hpre & Hacc & ->).
        exists (item :: pre), it, post. repeat split; auto; apply Hacc.
      * constructor; assumption.
  - assert (Hno : ~ acceptable cfg token_sort_ratio original_title item).
    { intros [Hti _]. unfold titled in Hti. congruence. }
    destruct (find_best_match_loop _ _ _ rest).
    + destruct IH as (pre & it & post & -> & Hpre & Hacc & ->).
      exists (item :: pre), it, post. repeat split; auto; apply Hacc.
    + constructor; assumption.
Qed.

Lemma find_best_match_loop_filter (original_clean : string) (items : list Item) :
  find_best_match_loop cfg token_sort_ratio original_clean items =
  find_best_match_loop cfg token_sort_ratio original_clean
    (filter (fun x => titled x = true) items).
Proof.
  induction items as [|item rest IH]; [reflexivity|].
  rewrite filter_cons. unfold titled at 1.
  destruct (decide (Text.nonempty (first_title item) = true)) as [Ht|Ht]; simpl.
  - rewrite Ht. simpl. rewrite IH. reflexivity.
  - apply not_true_is_false in Ht. rewrite Ht. simpl. exact IH.
Qed.

Lemma find_best_match_loop_titled (original_clean : string) (items : list Item) :
  match find_best_match_loop cfg token_sort_ratio original_clean items with
  | Some r => exists t, mr_crossref_title r = Some t /\ Text.nonempty t = true
  | None => True
  end.
Proof.
  induction items as [|item rest IH]; simpl; [exact I|].
  destruct (Text.nonempty (first_title item)) eqn:Ht; simpl; [|exact IH].
  destruct (Qle_bool _ _); [|exact IH].
  exists (first_title item). split; [reflexivity | exact Ht].
Qed.

End SelectorFacts.

(** C7, as the code has it.  For every source title and every ordered
    candidate list, [find_best_match] returns either none or the result
    built from the first candidate in input order that carries a non-empty
    title and scores at least the threshold: no such candidate of lower
    index is passed over.  It returns none exactly when no titled candidate
    meets the threshold, as when the list is empty.  The source title is
    not inspected apart from the scoring. *)
Theorem find_best_match_first_acceptable (cfg : Config)
    (token_sort_ratio : string -> string -> Q)
    (original_title : string) (items : list Item) :
  match find_best_match cfg token_sort_ratio original_title items with
  | Some r =>
      exists pre item post,
        items = pre ++ item :: post /\
        Forall (fun x => ~ acceptable cfg token_sort_ratio original_title x) pre /\
        acceptable cfg token_sort_ratio original_title item /\
        r = result_of token_sort_ratio original_title item
  | None => Forall (fun x => ~ acceptable cfg token_sort_ratio original_title x) items
  end.
Proof.
  rewrite find_best_match_unfold. apply find_best_match_loop_spec.
Qed.

(** C7, as stated, fails for an empty source title: against a candidate
    whose title is one blank, both cleaned titles are empty, the score is
    100 and the candidate is returned. *)
Lemma find_best_match_empty_source :
  find_best_match default_config Fuzzy.token_sort_ratio ""
    [ {| it_DOI := Some "10.1000/x"; it_title := Some [" "] |} ]
  = Some {| mr_doi := Some "10.1000/x"; mr_crossref_title := Some " ";
            mr_similarity_score := 100 # 1; mr_from_cache := false |}.
Proof. reflexivity. Qed.

(** C10.  Candidates whose title field is absent, empty, or begins with an
    empty string play no part in [find_best_match], whatever their position
    and score: the result is the result on the list without them.  Hence a
    returned result carries a non-empty matched title and such a candidate
    never hides a later one. *)
Theorem find_best_match_ignores_untitled (cfg : Config)
    (token_sort_ratio : string -> string -> Q)
    (original_title : string) (items : list Item) :
  find_best_match cfg token_sort_ratio original_title items =
  find_best_match cfg token_sort_ratio original_title
    (filter (fun x => titled x = true) items) /\
  match find_best_match cfg token_sort_ratio original_title items with
  | Some r => exists t, mr_crossref_title r = Some t /\ t <> ""
  | None => True
  end.
Proof.
  split.
  - rewrite !find_best_match_unfold. apply find_best_match_loop_filter.
  - rewrite find_best_match_unfold.
    pose proof (find_best_match_loop_titled cfg token_sort_ratio
                  (Text.strip (Text.upper original_title)) items) as H.
    destruct (find_best_match_loop _ _ _ items); [|exact I].
    destruct H as (t & Ht & Hne). exists t. split; [exact Ht|].
    intros ->. discriminate Hne.
Qed.

(** * Properties of the cache and of the fetch layer *)
Section FetchFacts.
Variable cfg : Config.
Variable token_sort_ratio : string -> string -> Q.
Variable crossref : nat -> string -> Response.

(** A title that passes the skip filter has a non-empty key. *)
Lemma valid_title_key (t : string) :
  Filter.should_skip_title (Some t) = false ->
  exists key, Filter.normalize_title (Some t) = Some key /\ Text.nonempty key = true.
Proof.
  unfold Filter.should_skip_title, Filter.normalize_title. intros Hskip.
  destruct (Text.nonempty (Text.strip t)) eqn:Hne; [|discriminate Hskip].
  assert (Hstrip : Text.strip t <> "") by (intros E; rewrite E in Hne; discriminate).
  destruct (String.eqb_spec t "") as [->|_]; [exfalso; apply Hstrip; reflexivity|].
  eexists; split; [reflexivity|].
  destruct (Text.take 200 (Text.upper (Text.strip t))) eqn:E; [|reflexivity].
  exfalso. apply Hstrip. apply TextFacts.upper_empty, (TextFacts.take_empty 199), E.
Qed.

Lemma cache_result_lookup (t key : string) (d ct : option string) (s : Q) (w : World) :
  Filter.normalize_title (Some t) = Some key -> Text.nonempty key = true ->
  w_cache (Cache.cache_result (Some t) d ct s w) !! key =
    Some {| ce_doi := d; ce_crossref_title := ct; ce_similarity_score := Some s |} /\
  w_trace (Cache.cache_result (Some t) d ct s w) = w_trace w.
Proof.
  intros Hk Hne. unfold Cache.cache_result. rewrite Hk, Hne. simpl.
  split; [apply lookup_insert_eq | reflexivity].
Qed.

Lemma get_cached_result_lookup (t key : string) (e : CacheEntry) (w : World) :
  Filter.normalize_title (Some t) = Some key -> Text.nonempty key = true ->
  w_cache w !! key = Some e ->
  Cache.get_cached_result (Some t) w =
    Some {| mr_doi := ce_doi e; mr_crossref_title := ce_crossref_title e;
            mr_similarity_score :=
              match ce_similarity_score e with Some s => s | None => 0%Q end;
            mr_from_cache := true |}.
Proof.
  intros Hk Hne He. unfold Cache.get_cached_result. rewrite Hk, Hne. simpl.
  rewrite He. reflexivity.
Qed.

Lemma requests_made_sleep (q : Q) (w : World) :
  requests_made (log_event (EvSleep q) w) = requests_made w.
Proof. reflexivity. Qed.

Lemma process_title_miss (t : string) (w : World) :
  Filter.should_skip_title (Some t) = false ->
  Cache.get_cached_result (Some t) w = None ->
  process_title cfg token_sort_ratio crossref (Some t) w =
  process_title_fetch cfg token_sort_ratio crossref (Some t) w.
Proof.
  intros Hskip Hmiss. unfold process_title, process_title_start.
  rewrite Hskip, Hmiss. reflexivity.
Qed.

End FetchFacts.



(** * Properties of the batch orchestrator *)
Section BatchFacts.
Variable cfg : Config.
Variable token_sort_ratio : string -> string -> Q.
Variable crossref : nat -> string -> Response.

Lemma written_refl (labels : list Z) (df : list Row) :
  Forall2 (written labels) df df.
Proof.
  induction df as [|row df IH]; constructor; [|exact IH].
  unfold written. split_and!; [reflexivity | tauto | reflexivity].
Qed.

Lemma write_result_written (df : list Row) (pr : (Z * option string) * option MatchResult) :
  Forall2 (written [pr.1.1]) df (write_result df pr).
Proof.
  destruct pr as [[idx title] [result|]]; simpl; [|apply written_refl].
  induction df as [|row df IH]; simpl; constructor; auto.
  destruct (row_idx row =? idx) eqn:Heq.
  - apply Z.eqb_eq in Heq. unfold written. split_and!.
    + reflexivity.
    + intros _. unfold enriched. simpl. eauto.
    + intros Hnot. exfalso. apply Hnot. simpl. set_solver.
  - unfold written. split_and!; [reflexivity | tauto | reflexivity].
Qed.

Lemma written_trans (l1 l2 : list Z) (a b c : list Row) :
  Forall2 (written l1) a b -> Forall2 (written l2) b c ->
  Forall2 (written (l1 ++ l2)) a c.
Proof.
  intros Hab. revert c. induction Hab as [|x y a b Hxy Hab IH]; intros c Hbc.
  - inversion Hbc. constructor.
  - inversion Hbc as [|y' z b' c' Hyz Hbc']; subst. constructor; [|apply IH; assumption].
    destruct Hxy as (P1 & E1 & U1), Hyz as (P2 & E2 & U2).
    unfold written. split_and!.
    + congruence.
    + auto.
    + intros Hnot. rewrite U2, U1; try reflexivity.
      * intros H. apply Hnot. set_solver.
      * assert (row_idx y = row_idx x) as -> by (unfold passthrough in P1; congruence).
        intros H. apply Hnot. set_solver.
Qed.

Lemma foldl_write_result_written
    (prs : list ((Z * option string) * option MatchResult)) (df : list Row) :
  Forall2 (written (prs.*1.*1)) df (foldl write_result df prs).
Proof.
  revert df. induction prs as [|pr prs IH]; intros df; simpl.
  - apply written_refl.
  - apply (written_trans [pr.1.1] (prs.*1.*1) df (write_result df pr));
      [apply write_result_written | apply IH].
Qed.

Lemma init_columns_enriched (row : Row) :
  passthrough (init_columns row) = passthrough row /\
  enriched (init_columns row) /\ has_defaults (init_columns row).
Proof. unfold enriched, has_defaults. split_and!; simpl; eauto. Qed.

Lemma init_then_write (labels : list Z)
    (prs : list ((Z * option string) * option MatchResult)) (batch_df : list Row) :
  (forall idx, idx ∈ prs.*1.*1 -> idx ∈ labels) ->
  Forall2 (fun row row' =>
             passthrough row' = passthrough row /\ enriched row' /\
             (row_idx row ∉ labels -> has_defaults row'))
          batch_df (foldl write_result (map init_columns batch_df) prs).
Proof.
  intros Hsub.
  pose proof (foldl_write_result_written prs (map init_columns batch_df)) as Hw.
  change (map init_columns batch_df) with (init_columns <$> batch_df) in Hw at 1.
  rewrite Forall2_fmap_l in Hw.
  eapply Forall2_impl; [exact Hw|].
  intros row row' (P & E & U). simpl in P, E, U.
  pose proof (init_columns_enriched row) as (P0 & E0 & D0).
  split_and!.
  - congruence.
  - auto.
  - intros Hnot. rewrite U; [exact D0|].
    simpl. intros Hin. apply Hnot, Hsub, Hin.
Qed.

(** The rows of a processed batch, position by position. *)
Lemma process_batch_rows (order : list nat) (batch_df : list Row) (w : World) :
  Forall2 (fun row row' =>
             passthrough row' = passthrough row /\ enriched row' /\
             (row_idx row ∉ (valid_pairs batch_df).*1 -> has_defaults row'))
          batch_df (process_batch cfg token_sort_ratio crossref order batch_df w).2.
Proof.
  unfold process_batch.
  generalize (valid_pairs batch_df). intros pairs.
  destruct pairs as [|p pairs].
  - simpl. apply (init_then_write [] [] batch_df). auto.
  - destruct (gather _ _ _ _ _ _) as [w' results]. cbn [snd].
    apply init_then_write.
    intros idx Hin.
    apply list_elem_of_fmap in Hin as (q & Hq & Hin).
    apply list_elem_of_fmap in Hin as ([q' res] & Hq' & Hin).
    simpl in Hq'. subst q idx.
    apply elem_of_zip_l in Hin.
    apply list_elem_of_fmap. exists q'. split; [reflexivity | exact Hin].
Qed.

End BatchFacts.


(** * Properties of the checkpoint manager *)
Module CheckpointFacts.
Import Checkpoint.






Lemma elem_of_glob (target_size : Z) (w : World) (f : (Z * Z) * Snapshot) :
  f ∈ glob_checkpoints target_size w <-> f.1.1 = target_size /\ w_files w !! f.1 = Some f.2.
Proof.
  unfold glob_checkpoints. rewrite list_elem_of_filter.
  destruct f as [k v]. rewrite elem_of_map_to_list. reflexivity.
Qed.











End CheckpointFacts.



(** * Properties of the resume logic *)
Module ResumeFacts.
Import Checkpoint.

Lemma max_by_mtime_strict (x best : (Z * Z) * Snapshot) (l : list ((Z * Z) * Snapshot)) :
  x ∈ best :: l ->
  (forall y, y ∈ best :: l -> y = x \/ mtime y < mtime x) ->
  max_by_mtime best l = x.
Proof.
  revert best. induction l as [|f l IH]; intros best Hin Hmax; simpl.
  - apply list_elem_of_singleton in Hin. congruence.
  - assert (Hbest : best = x \/ mtime best < mtime x) by (apply Hmax; left).
    assert (Hf : f = x \/ mtime f < mtime x) by (apply Hmax; right; left).
    apply IH.
    + apply elem_of_cons.
      apply elem_of_cons in Hin as [->|Hin].
      { left. destruct (Z.ltb_spec (mtime best) (mtime f)); [|reflexivity].
        destruct Hf as [->|]; [reflexivity | lia]. }
      apply elem_of_cons in Hin as [->|Hin]; [|right; exact Hin].
      left. destruct (Z.ltb_spec (mtime best) (mtime f)); [reflexivity|].
      destruct Hbest as [->|]; [reflexivity | lia].
    + intros y Hy. apply elem_of_cons in Hy as [->|Hy].
      * destruct (mtime best <? mtime f); assumption.
      * apply Hmax. right. right. exact Hy.
Qed.

(** The checkpoint that [get_last_checkpoint] returns when one file of the
    target size is strictly newer than the others. *)
Lemma get_last_checkpoint_latest (target_size count : Z) (snap : Snapshot) (w : World) :
  w_files w !! (target_size, count) = Some snap ->
  (forall count' snap', count' <> count ->
     w_files w !! (target_size, count') = Some snap' -> ck_mtime snap' < ck_mtime snap) ->
  get_last_checkpoint target_size w = (Some ((target_size, count), snap), count).
Proof.
  intros Hfile Hlatest. unfold get_last_checkpoint.
  assert (Hin : ((target_size, count), snap) ∈ glob_checkpoints target_size w).
  { apply CheckpointFacts.elem_of_glob. auto. }
  destruct (glob_checkpoints target_size w) as [|f l] eqn:Hglob.
  - apply elem_of_nil in Hin. contradiction.
  - rewrite (max_by_mtime_strict ((target_size, count), snap) f l Hin); [reflexivity|].
    intros [[T' C'] s'] Hy. rewrite <- Hglob in Hy.
    apply CheckpointFacts.elem_of_glob in Hy as [HT Hl]. simpl in HT, Hl. subst T'.
    destruct (decide (C' = count)) as [->|Hne].
    + left. congruence.
    + right. exact (Hlatest C' s' Hne Hl).
Qed.

Lemma df_head_take {A} (n : Z) (l : list A) :
  0 <= n <= len l -> df_head n l = take (Z.to_nat n) l.
Proof.
  intros Hn. unfold df_head, py_slice, clamp_index, len in *.
  destruct (Z.ltb_spec n 0) as [|_]; [lia|]. simpl.
  replace (Z.to_nat (Z.min 0 (Z.of_nat (length l)))) with 0%nat by lia.
  rewrite drop_0. f_equal. lia.
Qed.

End ResumeFacts.

(** X10.  Resume from a complete checkpoint.  For every target size T >= 0:
    if the checkpoint file of target size T with the strictly latest
    modification time is recorded at count C > 0, holds C records, and
    C >= T, then a run with target T changes nothing in the world (no fetch
    call, no sleep, no file written) and returns exactly the first T
    records of that checkpoint. *)
Theorem resume_from_complete_checkpoint (cfg : Config)
    (token_sort_ratio : string -> string -> Q) (crossref : nat -> string -> Response)
    (schedule : Z -> list nat) (rng : nat -> nat -> nat)
    (df : DataFrame) (target_size count : Z) (snap : Snapshot) (w : World) :
  w_files w !! (target_size, count) = Some snap ->
  (forall count' snap', count' <> count ->
     w_files w !! (target_size, count') = Some snap' -> ck_mtime snap' < ck_mtime snap) ->
  0 < count ->
  len (ck_rows snap) = count ->
  0 <= target_size <= count ->
  let run := enrich_with_resume cfg token_sort_ratio crossref schedule rng
               df target_size w in
  run = (w, Ok (take (Z.to_nat target_size) (ck_rows snap))) /\
  requests_made run.1 = requests_made w /\
  len (take (Z.to_nat target_size) (ck_rows snap)) = target_size.
Proof.
  intros Hfile Hlatest Hpos Hlen HT run. subst run.
  unfold enrich_with_resume.
  rewrite (ResumeFacts.get_last_checkpoint_latest target_size count snap w Hfile Hlatest).
  destruct (Z.ltb_spec 0 count) as [_|]; [|lia]. simpl.
  destruct (Z.leb_spec target_size (len (ck_rows snap))) as [_|]; [|lia].
  rewrite ResumeFacts.df_head_take by lia.
  split_and!; try reflexivity.
  unfold len in *. rewrite length_take. lia.
Qed.

(** * Further properties of the skip filter *)
Module FilterShape.
Import Text Regex Filter.

(** A run of at least [n] characters of one class, up to the end of the
    string, matches [cls{n,}] followed by anything that accepts the end. *)
Lemma run_matches (cls : ascii -> bool) (k : string -> bool) (n : nat) (s : string) :
  k "" = true -> all_in cls s = true -> (n <= String.length s)%nat ->
  match_rep cls n None k s = true.
Proof.
  intros Hk. revert n. induction s as [|c s IH]; intros n Hall Hlen.
  - simpl in Hlen. destruct n; [|lia]. simpl. rewrite Hk. reflexivity.
  - simpl in Hall, Hlen. apply andb_true_iff in Hall as [Hc Hs].
    simpl. rewrite Hc. simpl.
    rewrite (IH (Nat.pred n) Hs) by lia. apply orb_true_r.
Qed.

Lemma all_dot_no_newline (s : string) : all_in is_dot s = negb (has_newline s).
Proof.
  induction s as [|c s IH]; simpl; [reflexivity|].
  rewrite IH. unfold is_dot. destruct (is_newline c); reflexivity.
Qed.

Lemma skip_by_pattern (t : string) (pattern : list rep) :
  In pattern skip_patterns -> re_match pattern (strip t) = true ->
  should_skip_title (Some t) = true.
Proof.
  intros Hin Hm. unfold should_skip_title.
  destruct (negb (nonempty (strip t))); [reflexivity|].
  replace (existsb _ skip_patterns) with true; [reflexivity|].
  symmetry. apply existsb_exists. eauto.
Qed.

Lemma skip_by_indicator (t : string) (indicator : string) :
  In indicator portuguese_indicators -> contains indicator (upper (strip t)) = true ->
  should_skip_title (Some t) = true.
Proof.
  intros Hin Hc. unfold should_skip_title.
  destruct (negb (nonempty (strip t))); [reflexivity|].
  destruct (existsb _ skip_patterns); [reflexivity|].
  replace (existsb _ portuguese_indicators) with true; [reflexivity|].
  symmetry. apply existsb_exists. eauto.
Qed.

End FilterShape.

(** X1.  What a title that passes the skip filter looks like: trimmed, it
    is not empty; if it holds no line feed it has between 6 and 249
    characters; it is not made of decimal digits only; if it is made of
    capitals A..Z and white space only it has fewer than 10 characters; and
    upper-cased it contains none of the three Portuguese markers. *)
Theorem valid_title_shape (t : string) :
  Filter.should_skip_title (Some t) = false ->
  let s := Text.strip t in
  s <> "" /\
  (has_newline s = false -> (6 <= String.length s < 250)%nat) /\
  all_in Text.is_digit s = false /\
  (all_in (fun c => Text.is_AZ c || Text.is_space c) s = true -> (String.length s < 10)%nat) /\
  Forall (fun indicator => Text.contains indicator (Text.upper s) = false)
         Filter.portuguese_indicators.
Proof.
  intros Hskip s. subst s.
  assert (Hne : Text.strip t <> "").
  { intros E. unfold Filter.should_skip_title in Hskip. rewrite E in Hskip. discriminate. }
  split_and!.
  - exact Hne.
  - intros Hnl. split.
    + destruct (le_lt_dec 6 (String.length (Text.strip t))) as [|Hshort]; [assumption|].
      rewrite (FilterFacts.should_skip_title_short_single_line t Hshort Hnl) in Hskip.
      discriminate.
    + destruct (le_lt_dec 250 (String.length (Text.strip t))) as [Hlong|]; [|assumption].
      rewrite (FilterShape.skip_by_pattern t [Regex.Rep Text.is_dot 250 None]) in Hskip;
        [discriminate | simpl; tauto |].
      apply FilterShape.run_matches; [reflexivity | | exact Hlong].
      rewrite FilterShape.all_dot_no_newline, Hnl. reflexivity.
  - destruct (all_in Text.is_digit (Text.strip t)) eqn:Hd; [|reflexivity].
    rewrite (FilterShape.skip_by_pattern t
               [Regex.Rep Text.is_digit 1 None; Regex.Rep Text.is_space 0 None]) in Hskip;
      [discriminate | simpl; tauto |].
    apply FilterShape.run_matches; [reflexivity | exact Hd |].
    destruct (Text.strip t); [contradiction | simpl; lia].
  - intros Hcaps.
    destruct (le_lt_dec 10 (String.length (Text.strip t))) as [Hlong|]; [|assumption].
    rewrite (FilterShape.skip_by_pattern t
               [Regex.Rep (fun c => Text.is_AZ c || Text.is_space c) 10 None]) in Hskip;
      [discriminate | simpl; tauto |].
    apply FilterShape.run_matches; [reflexivity | exact Hcaps | exact Hlong].
  - apply Forall_forall. intros indicator Hin.
    destruct (Text.contains indicator (Text.upper (Text.strip t))) eqn:Hc; [|reflexivity].
    apply list_elem_of_In in Hin.
    rewrite (FilterShape.skip_by_indicator t indicator Hin Hc) in Hskip. discriminate.
Qed.

Lemma valid_title_shape_witness :
  Filter.should_skip_title (Some "Deep learning for proteins") = false /\
  Text.strip "Deep learning for proteins" <> "".
Proof.
  split; [reflexivity|].
  apply (valid_title_shape "Deep learning for proteins" eq_refl).
Defined.

(** * Further properties of the match cache *)
Module CacheFacts.


End CacheFacts.



(** X3.  A cache write leaves every other key alone: the lookup of a title
    whose normalised key differs from the key written returns what it
    returned before, and a write never touches the checkpoint files, the
    ledger, the final outputs, the clock or the trace of network calls. *)
Theorem cache_result_other_key (t t' : string) (d ct : option string) (s : Q) (w : World) :
  Filter.normalize_title (Some t') <> Filter.normalize_title (Some t) ->
  let w' := Cache.cache_result (Some t) d ct s w in
  Cache.get_cached_result (Some t') w' = Cache.get_cached_result (Some t') w /\
  w_files w' = w_files w /\ w_ledger w' = w_ledger w /\ w_outputs w' = w_outputs w /\
  w_clock w' = w_clock w /\ w_trace w' = w_trace w.
Proof.
  intros Hdiff w'. subst w'.
  unfold Cache.get_cached_result, Cache.cache_result.
  revert Hdiff.
  generalize (Filter.normalize_title (Some t')) (Filter.normalize_title (Some t)).
  intros k' k Hdiff.
  destruct k as [key|]; [|tauto].
  destruct (Text.nonempty key); [|tauto].
  split_and!; try reflexivity.
  destruct k' as [key'|]; [|reflexivity].
  destruct (Text.nonempty key'); [|reflexivity].
  cbn [negb w_cache set_cache].
  rewrite lookup_insert_ne by congruence. reflexivity.
Qed.

Lemma cache_result_other_key_witness :
  Filter.normalize_title (Some "Quantum gravity") <> Filter.normalize_title (Some "Deep learning") /\
  Cache.get_cached_result (Some "Quantum gravity")
    (Cache.cache_result (Some "Deep learning") (Some "10.1/a") None (95 # 1) empty_world) = None.
Proof.
  assert (H : Filter.normalize_title (Some "Quantum gravity")
              <> Filter.normalize_title (Some "Deep learning")) by discriminate.
  split; [exact H|].
  apply (cache_result_other_key "Deep learning" "Quantum gravity" (Some "10.1/a") None
           (95 # 1) empty_world H).
Defined.

(** * Further properties of [process_title] *)
Section TitleFacts.
Variable cfg : Config.
Variable token_sort_ratio : string -> string -> Q.
Variable crossref : nat -> string -> Response.

Lemma get_cached_result_from_cache (title : option string) (w : World) (c : MatchResult) :
  Cache.get_cached_result title w = Some c -> as_cached (Some c) = c.
Proof.
  unfold Cache.get_cached_result.
  destruct (Filter.normalize_title title) as [key|]; [|discriminate].
  destruct (negb (Text.nonempty key)); [discriminate|].
  destruct (w_cache w !! key); [|discriminate].
  intros [= <-]. reflexivity.
Qed.

(** The cache entry that [process_title_fetch] leaves for its title. *)
Lemma process_title_fetch_cached (t key : string) (w : World) :
  Filter.normalize_title (Some t) = Some key -> Text.nonempty key = true ->
  let run := process_title_fetch cfg token_sort_ratio crossref (Some t) w in
  Cache.get_cached_result (Some t) run.1 = Some (as_cached run.2).
Proof.
  intros Hkey Hne. cbv zeta. unfold process_title_fetch.
  destruct (search_crossref cfg token_sort_ratio crossref (Some t) _) as [w2 [m|]];
    cbn [fst snd].
  - destruct (cache_result_lookup t key (mr_doi m) (mr_crossref_title m)
                (mr_similarity_score m) w2 Hkey Hne) as [Hc _].
    rewrite (get_cached_result_lookup t key _ _ Hkey Hne Hc). reflexivity.
  - destruct (cache_result_lookup t key None None 0 w2 Hkey Hne) as [Hc _].
    rewrite (get_cached_result_lookup t key _ _ Hkey Hne Hc). reflexivity.
Qed.

End TitleFacts.

(** X4.  Processing a title a second time never fetches.  For a title that
    passes the skip filter, whatever the cache held and whatever the search
    service answered the first time, a second [process_title] in the world
    left by the first changes nothing (no request, no sleep, no write) and
    returns the first outcome as the cache stores it: the same identifier,
    matched title and score, flagged as served from the cache, or the
    stored no-match when the first attempt found nothing. *)
Theorem process_title_twice (cfg : Config) (token_sort_ratio : string -> string -> Q)
    (crossref : nat -> string -> Response) (t : string) (w : World) :
  Filter.should_skip_title (Some t) = false ->
  let first := process_title cfg token_sort_ratio crossref (Some t) w in
  process_title cfg token_sort_ratio crossref (Some t) first.1 =
    (first.1, Some (as_cached first.2)).
Proof.
  intros Hskip first. subst first.
  destruct (valid_title_key t Hskip) as (key & Hkey & Hne).
  assert (Hhit : forall w1 c, Cache.get_cached_result (Some t) w1 = Some c ->
            process_title cfg token_sort_ratio crossref (Some t) w1 = (w1, Some c)).
  { intros w1 c Hc. unfold process_title, process_title_start. rewrite Hskip, Hc. reflexivity. }
  destruct (Cache.get_cached_result (Some t) w) as [c|] eqn:Hc.
  - rewrite (Hhit w c Hc). cbn [fst snd].
    rewrite (get_cached_result_from_cache (Some t) w c Hc). apply Hhit, Hc.
  - rewrite (process_title_miss cfg token_sort_ratio crossref t w Hskip Hc).
    apply Hhit. apply (process_title_fetch_cached cfg token_sort_ratio crossref t key w Hkey Hne).
Qed.

Lemma process_title_twice_witness :
  Filter.should_skip_title (Some "Deep learning for proteins") = false /\
  let svc := fun (_ : nat) (_ : string) =>
               Reply 200 (Some [ {| it_DOI := Some "10.1/a";
                                    it_title := Some ["deep learning for proteins"] |} ]) in
  let first := process_title default_config Fuzzy.token_sort_ratio svc
                 (Some "Deep learning for proteins") empty_world in
  process_title default_config Fuzzy.token_sort_ratio svc
    (Some "Deep learning for proteins") first.1 = (first.1, Some (as_cached first.2)).
Proof.
  split; [reflexivity|].
  intros svc.
  apply (process_title_twice default_config Fuzzy.token_sort_ratio svc
           "Deep learning for proteins" empty_world eq_refl).
Defined.

(** * Further properties of the batch orchestrator *)
Section GatherFacts.
Variable cfg : Config.
Variable token_sort_ratio : string -> string -> Q.
Variable crossref : nat -> string -> Response.

Lemma same_storage_refl (w : World) : same_storage w w.
Proof. unfold same_storage. tauto. Qed.

Lemma same_storage_trans (w1 w2 w3 : World) :
  same_storage w1 w2 -> same_storage w2 w3 -> same_storage w1 w3.
Proof. unfold same_storage. intros (-> & -> & -> & ->) (-> & -> & -> & ->). tauto. Qed.

Lemma cache_result_frame (title : option string) (d ct : option string) (s : Q) (w : World) :
  same_storage w (Cache.cache_result title d ct s w) /\
  w_trace (Cache.cache_result title d ct s w) = w_trace w.
Proof.
  unfold Cache.cache_result, same_storage.
  generalize (Filter.normalize_title title). intros [key|]; [|tauto].
  destruct (negb (Text.nonempty key)); [tauto|]. cbn. tauto.
Qed.

Lemma search_crossref_frame (title : option string) (w : World) :
  same_storage w (search_crossref cfg token_sort_ratio crossref title w).1.
Proof.
  unfold search_crossref, search_crossref_try, same_storage.
  destruct title as [t|]; [|cbn; tauto].
  destruct (crossref _ _) as [status body|]; [|cbn; tauto].
  destruct (status =? 200); [destruct body; cbn; tauto|].
  destruct (status =? 429); cbn; tauto.
Qed.

Lemma search_crossref_requests (t : string) (w : World) :
  requests_made (search_crossref cfg token_sort_ratio crossref (Some t) w).1
  = S (requests_made w).
Proof.
  unfold search_crossref, search_crossref_try.
  destruct (crossref _ _) as [status body|]; [|reflexivity].
  destruct (status =? 200); [destruct body; reflexivity|].
  destruct (status =? 429); reflexivity.
Qed.

Lemma process_title_fetch_frame (title : option string) (w : World) :
  same_storage w (process_title_fetch cfg token_sort_ratio crossref title w).1.
Proof.
  unfold process_title_fetch.
  pose proof (search_crossref_frame title (log_event (EvSleep (1 # rate_limit cfg)) w)) as H.
  destruct (search_crossref _ _ _ title _) as [w2 result]. cbn [fst] in *.
  eapply same_storage_trans; [|destruct result; apply cache_result_frame].
  exact H.
Qed.

Lemma process_title_fetch_requests (t : string) (w : World) :
  requests_made (process_title_fetch cfg token_sort_ratio crossref (Some t) w).1
  = S (requests_made w).
Proof.
  unfold process_title_fetch.
  pose proof (search_crossref_requests t (log_event (EvSleep (1 # rate_limit cfg)) w)) as H.
  destruct (search_crossref _ _ _ (Some t) _) as [w2 result]. cbn [fst] in *.
  rewrite requests_made_sleep in H. rewrite <- H. unfold requests_made.
  destruct result; f_equal; f_equal; apply cache_result_frame.
Qed.

Lemma count_pending_insert (tasks : list Task) (i : nat) (title : option string)
    (r : option MatchResult) :
  tasks !! i = Some (Pending title) ->
  S (count_pending (<[i := Done r]> tasks)) = count_pending tasks.
Proof.
  revert i. induction tasks as [|a tasks IH]; intros i Hi; [discriminate|].
  destruct i as [|i]; simpl in *.
  - injection Hi as ->. reflexivity.
  - destruct a; [apply IH, Hi | f_equal; apply IH, Hi].
Qed.

Lemma resume_task_inv (tasks : list Task) (w : World) (i : nat) :
  pending_titled tasks ->
  let st := resume_task cfg token_sort_ratio crossref (tasks, w) i in
  pending_titled st.1 /\ same_storage w st.2 /\
  (requests_made st.2 + count_pending st.1 = requests_made w + count_pending tasks)%nat /\
  length st.1 = length tasks /\
  (forall j, settled tasks j -> settled st.1 j) /\ settled st.1 i.
Proof.
  intros Hpt. cbv zeta. unfold resume_task.
  destruct (tasks !! i) as [[r|title]|] eqn:Hi; cbn [fst snd].
  - split_and!; auto using same_storage_refl. intros title. rewrite Hi. discriminate.
  - destruct title as [t|].
    2:{ exfalso. unfold pending_titled in Hpt. rewrite Forall_forall in Hpt.
        apply (Hpt (Pending None)); [|reflexivity].
        apply list_elem_of_lookup. eauto. }
    pose proof (process_title_fetch_frame (Some t) w) as Hf.
    pose proof (process_title_fetch_requests t w) as Hr.
    destruct (process_title_fetch _ _ _ (Some t) w) as [w' r]. cbn [fst snd] in *.
    assert (Hlt : (i < length tasks)%nat) by (eapply lookup_lt_Some; eauto).
    split_and!.
    + unfold pending_titled in *. rewrite Forall_forall in *.
      intros task Hin%list_elem_of_lookup. destruct Hin as [j Hj].
      destruct (decide (i = j)) as [<-|Hne].
      * rewrite list_lookup_insert_eq in Hj by exact Hlt. injection Hj as <-. discriminate.
      * rewrite list_lookup_insert_ne in Hj by exact Hne.
        apply Hpt, list_elem_of_lookup. eauto.
    + exact Hf.
    + pose proof (count_pending_insert tasks i (Some t) r Hi). lia.
    + apply length_insert.
    + intros j Hj title. destruct (decide (i = j)) as [<-|Hne].
      * rewrite list_lookup_insert_eq by exact Hlt. discriminate.
      * rewrite list_lookup_insert_ne by exact Hne. apply Hj.
    + intros title. rewrite list_lookup_insert_eq by exact Hlt. discriminate.
  - split_and!; auto using same_storage_refl. intros title. rewrite Hi. discriminate.
Qed.

Lemma resume_all_inv (l : list nat) (tasks : list Task) (w : World) :
  pending_titled tasks ->
  let st := foldl (resume_task cfg token_sort_ratio crossref) (tasks, w) l in
  pending_titled st.1 /\ same_storage w st.2 /\
  (requests_made st.2 + count_pending st.1 = requests_made w + count_pending tasks)%nat /\
  length st.1 = length tasks /\
  (forall j, settled tasks j -> settled st.1 j) /\
  (forall j, j ∈ l -> settled st.1 j).
Proof.
  revert tasks w. induction l as [|i l IH]; intros tasks w Hpt; cbv zeta.
  - cbn [foldl fst snd]. split_and!; auto using same_storage_refl.
    intros j Hj. apply elem_of_nil in Hj. contradiction.
  - cbn [foldl].
    pose proof (resume_task_inv tasks w i Hpt) as H1. cbv zeta in H1.
    destruct (resume_task _ _ _ (tasks, w) i) as [tasks1 w1]. cbn [fst snd] in H1.
    destruct H1 as (P1 & S1 & R1 & L1 & M1 & D1).
    pose proof (IH tasks1 w1 P1) as H2. cbv zeta in H2.
    destruct (foldl _ (tasks1, w1) l) as [tasks2 w2]. cbn [fst snd] in *.
    destruct H2 as (P2 & S2 & R2 & L2 & M2 & D2).
    split_and!.
    + exact P2.
    + eapply same_storage_trans; eauto.
    + lia.
    + congruence.
    + auto.
    + intros j Hj. apply elem_of_cons in Hj as [->|Hj]; auto.
Qed.

Lemma count_pending_settled (tasks : list Task) :
  (forall j, (j < length tasks)%nat -> settled tasks j) -> count_pending tasks = O.
Proof.
  induction tasks as [|a tasks IH]; intros H; [reflexivity|].
  destruct a as [r|title].
  - simpl. apply IH. intros j Hj title. apply (H (S j)). simpl. lia.
  - exfalso. apply (H O ltac:(simpl; lia) title). reflexivity.
Qed.

(** What [gather] does to the world. *)
Lemma gather_inv (order : list nat) (titles : list (option string)) (w : World) :
  let tasks := map (fun title => process_title_start title w) titles in
  let run := gather cfg token_sort_ratio crossref order titles w in
  same_storage w run.1 /\
  requests_made run.1 = (requests_made w + count_pending tasks)%nat.
Proof.
  cbv zeta. unfold gather.
  set (tasks := map (fun title => process_title_start title w) titles).
  assert (Hpt : pending_titled tasks).
  { unfold pending_titled, tasks. apply Forall_forall. intros task Hin.
    apply list_elem_of_In, in_map_iff in Hin as (title & <- & _).
    unfold process_title_start.
    destruct title as [t|]; [|discriminate].
    destruct (Filter.should_skip_title (Some t)); [discriminate|].
    destruct (Cache.get_cached_result (Some t) w); discriminate. }
  pose proof (resume_all_inv (order ++ seq 0 (length tasks)) tasks w Hpt) as H.
  cbv zeta in H.
  destruct (foldl _ (tasks, w) _) as [tasks' w']. cbn [fst snd] in *.
  destruct H as (_ & Hs & Hr & Hl & _ & Hd).
  split; [exact Hs|].
  rewrite (count_pending_settled tasks') in Hr; [lia|].
  intros j Hj. apply Hd, elem_of_app. right. apply elem_of_seq. lia.
Qed.

Lemma valid_pairs_valid (batch_df : list Row) (p : Z * option string) :
  In p (valid_pairs batch_df) -> Filter.should_skip_title p.2 = false.
Proof.
  unfold valid_pairs. intros (row & _ & Hin)%in_flat_map.
  destruct (Filter.should_skip_title (NM_PRODUCAO row)) eqn:E; simpl in Hin.
  - contradiction.
  - destruct Hin as [<-|[]]. exact E.
Qed.

Lemma count_pending_start (pairs : list (Z * option string)) (w : World) :
  (forall p, In p pairs -> Filter.should_skip_title p.2 = false) ->
  count_pending (map (fun title => process_title_start title w) (map snd pairs))
  = length (filter (fun p => cache_miss w p.2 = true) pairs).
Proof.
  induction pairs as [|p pairs IH]; intros Hv; [reflexivity|].
  assert (IH' := IH (fun q Hq => Hv q (or_intror Hq))).
  cbn [map]. rewrite filter_cons.
  unfold process_title_start at 1. rewrite (Hv p (or_introl eq_refl)).
  destruct (decide (cache_miss w p.2 = true)) as [Hm|Hm]; unfold cache_miss in Hm;
    destruct (Cache.get_cached_result p.2 w); cbn [count_pending length].
  - discriminate Hm.
  - f_equal. exact IH'.
  - exact IH'.
  - exfalso. apply Hm. reflexivity.
Qed.

End GatherFacts.

(** X5.  [process_batch] issues exactly one request for each valid title
    that is not in the cache when the batch starts, and none for the
    others, in every completion order: skipped and cached records cost no
    fetch. *)
Theorem process_batch_requests (cfg : Config) (token_sort_ratio : string -> string -> Q)
    (crossref : nat -> string -> Response) (order : list nat)
    (batch_df : list Row) (w : World) :
  requests_made (process_batch cfg token_sort_ratio crossref order batch_df w).1
  = (requests_made w + length (pairs_to_fetch batch_df w))%nat.
Proof.
  unfold process_batch, pairs_to_fetch.
  pose proof (valid_pairs_valid batch_df) as Hv.
  destruct (valid_pairs batch_df) as [|p pairs] eqn:Hp.
  - cbn. lia.
  - pose proof (gather_inv cfg token_sort_ratio crossref order (map snd (p :: pairs)) w) as H.
    cbv zeta in H.
    destruct (gather _ _ _ _ _ _) as [w' results]. cbn [fst snd] in *.
    destruct H as [_ ->]. f_equal.
    apply count_pending_start. exact Hv.
Qed.

(** X6.  [process_batch] touches nothing but the cache and the network:
    the checkpoint files, the progress ledger, the final outputs and the
    clock are as before. *)
Theorem process_batch_storage (cfg : Config) (token_sort_ratio : string -> string -> Q)
    (crossref : nat -> string -> Response) (order : list nat)
    (batch_df : list Row) (w : World) :
  same_storage w (process_batch cfg token_sort_ratio crossref order batch_df w).1.
Proof.
  unfold process_batch.
  destruct (valid_pairs batch_df) as [|p pairs].
  - apply same_storage_refl.
  - pose proof (gather_inv cfg token_sort_ratio crossref order (map snd (p :: pairs)) w) as H.
    cbv zeta in H.
    destruct (gather _ _ _ _ _ _) as [w' results]. apply H.
Qed.

(** * Further properties of the checkpoint manager *)
Module CheckpointMore.
Import Checkpoint.

Lemma max_by_mtime_greatest (best : (Z * Z) * Snapshot) (l : list ((Z * Z) * Snapshot)) :
  max_by_mtime best l ∈ best :: l /\
  forall g, g ∈ best :: l -> mtime g <= mtime (max_by_mtime best l).
Proof.
  revert best. induction l as [|f l IH]; intros best; simpl.
  - split; [left|]. intros g Hg. apply list_elem_of_singleton in Hg. subst. lia.
  - destruct (IH (if mtime best <? mtime f then f else best)) as [Hin Hmax].
    split.
    + apply elem_of_cons in Hin as [->|Hin].
      * destruct (mtime best <? mtime f); [right; left | left].
      * right. right. exact Hin.
    + intros g Hg.
      assert (Hb : mtime best <= mtime (max_by_mtime (if mtime best <? mtime f then f else best) l)
                   /\ mtime f <= mtime (max_by_mtime (if mtime best <? mtime f then f else best) l)).
      { specialize (Hmax _ (list_elem_of_here _ _)).
        destruct (Z.ltb_spec (mtime best) (mtime f)); lia. }
      apply elem_of_cons in Hg as [->|Hg]; [apply Hb|].
      apply elem_of_cons in Hg as [->|Hg]; [apply Hb|].
      apply Hmax. right. exact Hg.
Qed.




End CheckpointMore.

(** X7.  [get_last_checkpoint] selects by modification time.  It returns
    no checkpoint (and count 0) exactly when storage holds no checkpoint
    file of the target size; otherwise it returns a file of that target
    size that is on storage, the count in its name, and no file of the
    target size is newer than it. *)
Theorem get_last_checkpoint_newest (target_size : Z) (w : World) :
  match Checkpoint.get_last_checkpoint target_size w with
  | (Some f, n) =>
      n = f.1.2 /\ f.1.1 = target_size /\ w_files w !! f.1 = Some f.2 /\
      forall count snap, w_files w !! (target_size, count) = Some snap ->
                         ck_mtime snap <= ck_mtime f.2
  | (None, n) =>
      n = 0 /\ forall count, w_files w !! (target_size, count) = None
  end.
Proof.
  unfold Checkpoint.get_last_checkpoint.
  destruct (Checkpoint.glob_checkpoints target_size w) as [|f l] eqn:Hglob.
  - split; [reflexivity|]. intros count.
    destruct (w_files w !! (target_size, count)) as [snap|] eqn:E; [|reflexivity].
    assert (H : ((target_size, count), snap) ∈ Checkpoint.glob_checkpoints target_size w)
      by (apply CheckpointFacts.elem_of_glob; auto).
    rewrite Hglob in H. apply elem_of_nil in H. contradiction.
  - destruct (CheckpointMore.max_by_mtime_greatest f l) as [Hin Hmax].
    rewrite <- Hglob in Hin.
    apply CheckpointFacts.elem_of_glob in Hin as [HT Hl].
    split_and!; auto.
    intros count snap Hs.
    apply (Hmax ((target_size, count), snap)).
    rewrite <- Hglob. apply CheckpointFacts.elem_of_glob. auto.
Qed.




(** A concrete resume: with one checkpoint
    of two rows for target size 2 on storage, a run with target 2 returns
    those two rows and leaves the world as it was. *)
Lemma resume_from_complete_checkpoint_witness :
  enrich_with_resume default_config Fuzzy.token_sort_ratio
    (fun _ _ => TransportError) (fun _ => []) (fun _ k => k)
    {| df_has_AN_BASE := false; df_rows := [] |} 2 sample_world
  = (sample_world, Ok (take 2 (ck_rows sample_snapshot))).
Proof.
  apply (resume_from_complete_checkpoint default_config Fuzzy.token_sort_ratio
           (fun _ _ => TransportError) (fun _ => []) (fun _ k => k)
           {| df_has_AN_BASE := false; df_rows := [] |} 2 2 sample_snapshot sample_world).
  - unfold sample_world. cbn [w_files Checkpoint.set_files]. apply lookup_singleton_eq.
  - intros count' snap' Hne H. unfold sample_world in H. cbn [w_files Checkpoint.set_files] in H.
    rewrite lookup_singleton_ne in H by congruence. discriminate.
  - lia.
  - reflexivity.
  - lia.
Defined.

(** * Properties of the batch loop *)
Section LoopFacts.
Variable cfg : Config.
Variable token_sort_ratio : string -> string -> Q.
Variable crossref : nat -> string -> Response.
Variable schedule : Z -> list nat.

Lemma process_batch_length (order : list nat) (batch_df : list Row) (w : World) :
  length (process_batch cfg token_sort_ratio crossref order batch_df w).2 = length batch_df.
Proof.
  symmetry. eapply Forall2_length.
  apply (process_batch_rows cfg token_sort_ratio crossref order batch_df w).
Qed.







End LoopFacts.

